(** * minijinja DuckDB extension: the declared interface of [MinijinjaExtension]

    The repository's source is the header [src/include/minijinja_extension.hpp].
    This development embeds

    - the header itself, byte for byte, together with a small lexer and a
      declaration reader for the C++ subset the header is written in, so that
      statements about what the header declares are computed from its text;
    - the declared class as a Rocq record of declarations, and the meaning of
      its three member-function signatures as state-passing functions over
      the object, the by-reference argument and an exception outcome;
    - the member-function bodies, which live in a translation unit that is
      not part of the source tree, modelled from the specification. *)

From Stdlib Require Import String Ascii List Bool Arith Lia.
Import ListNotations.
Local Open Scope list_scope.
Local Open Scope string_scope.

(** ** Characters and strings *)

Module Chars.

Definition dq : ascii := "034"%char.
Definition tab : ascii := "009"%char.
Definition lf : ascii := "010"%char.

Definition str (c : ascii) : string := String c EmptyString.

(** [quoted s] is [s] between two double-quote characters, as a C string
    literal is spelled in the source text. *)
Definition quoted (s : string) : string := str dq ++ s ++ str dq.

Definition between (lo hi : nat) (c : ascii) : bool :=
  let n := nat_of_ascii c in Nat.leb lo n && Nat.leb n hi.

Definition is_ident_char (c : ascii) : bool :=
  between 97 122 c || between 65 90 c || between 48 57 c || Ascii.eqb c "_".

Definition is_space (c : ascii) : bool :=
  Ascii.eqb c " " || Ascii.eqb c tab || Ascii.eqb c "013".

(** Splitting a file's contents at line feeds.  A text with [n] line feeds
    has [n + 1] lines; the last one is the text after the last line feed. *)
Fixpoint split_lines_from (cur : string) (s : string) : list string :=
  match s with
  | EmptyString => [cur]
  | String c rest =>
      if Ascii.eqb c lf then cur :: split_lines_from EmptyString rest
      else split_lines_from (cur ++ str c) rest
  end.

Definition split_lines (s : string) : list string :=
  split_lines_from EmptyString s.

Definition join_lines (ls : list string) : string := String.concat (str lf) ls.

(** A line of text holds no line feed. *)
Definition no_lf (l : string) : Prop :=
  forall c, In c (list_ascii_of_string l) -> c <> lf.

End Chars.
Import Chars.

(** ** The source tree *)

Module Source.

(** An empty line. *)
Definition blank : string := EmptyString.

(** The seventeen lines of [src/include/minijinja_extension.hpp].  The
    three member declarations are indented by one tab character. *)
Definition hpp_lines : list string :=
  [ "#pragma once"
  ; blank
  ; "#include " ++ quoted "duckdb.hpp"
  ; blank
  ; "namespace duckdb {"
  ; blank
  ; "// Extension version - update this single location when releasing new versions"
  ; "#define MINIJINJA_EXTENSION_VERSION " ++ quoted "2025101901"
  ; blank
  ; "class MinijinjaExtension : public Extension {"
  ; "public:"
  ; str tab ++ "void Load(ExtensionLoader &db) override;"
  ; str tab ++ "std::string Name() override;"
  ; str tab ++ "std::string Version() const override;"
  ; "};"
  ; blank
  ; "} // namespace duckdb" ].

(** The file's contents: the lines separated by line feeds, with no line
    feed after the last one. *)
Definition minijinja_extension_hpp : string := join_lines hpp_lines.

(** The source tree: path and contents of each file. *)
Definition source_files : list (string * string) :=
  [ ("src/include/minijinja_extension.hpp", minijinja_extension_hpp) ].

End Source.
Import Source.

(** ** Lexer *)

Module Lexer.

Inductive token : Type :=
| TId (s : string)     (* identifier, keyword or [::]-qualified name *)
| TLit (s : string)    (* string literal, without its quotes *)
| TSym (c : ascii).    (* any other non-blank character *)

Definition token_eqb (a b : token) : bool :=
  match a, b with
  | TId x, TId y => String.eqb x y
  | TLit x, TLit y => String.eqb x y
  | TSym x, TSym y => Ascii.eqb x y
  | _, _ => false
  end.

Inductive lex_mode : Type :=
| Idle
| InWord (acc : string)
| InLit (acc : string).

Definition flush (m : lex_mode) : list token :=
  match m with
  | Idle => []
  | InWord w => [TId w]
  | InLit s => [TLit s]
  end.

Definition word_of (m : lex_mode) : string :=
  match m with InWord w => w | _ => EmptyString end.

(** One line of source text to tokens.  A [//] comment ends the line; a
    pair of colons joins the names around it into one qualified name. *)
Fixpoint lex (m : lex_mode) (s : string) : list token :=
  match s with
  | EmptyString => flush m
  | String c rest =>
      match m with
      | InLit acc =>
          if Ascii.eqb c dq then TLit acc :: lex Idle rest
          else lex (InLit (acc ++ str c)) rest
      | _ =>
          if is_ident_char c then lex (InWord (word_of m ++ str c)) rest
          else if is_space c then (flush m ++ lex Idle rest)%list
          else if Ascii.eqb c dq
          then (flush m ++ lex (InLit EmptyString) rest)%list
          else
            match rest with
            | String d rest' =>
                if Ascii.eqb c "/" && Ascii.eqb d "/" then flush m
                else if Ascii.eqb c ":" && Ascii.eqb d ":"
                then lex (InWord (word_of m ++ "::")) rest'
                else (flush m ++ TSym c :: lex Idle rest)%list
            | EmptyString => (flush m ++ [TSym c])%list
            end
      end
  end.

Definition tokens_of_line (l : string) : list token := lex Idle l.

End Lexer.
Import Lexer.

(** ** Declarations *)

Module Decl.

Record param : Type := mk_param
  { p_const : bool      (* [const] before the type *)
  ; p_type : string
  ; p_ref : bool        (* passed by reference, [&] *)
  ; p_name : string }.

Record method_decl : Type := mk_method
  { m_virtual : bool    (* the [virtual] specifier is written *)
  ; m_ret : string
  ; m_name : string
  ; m_params : list param
  ; m_const : bool      (* [const] after the parameter list *)
  ; m_override : bool   (* [override] after the parameter list *) }.

Record field_decl : Type := mk_field
  { f_type : string
  ; f_name : string }.

Record class_decl : Type := mk_class
  { c_key : string                       (* [class] or [struct] *)
  ; c_name : string
  ; c_bases : list (string * string)     (* access and name of each base *)
  ; c_methods : list method_decl
  ; c_fields : list field_decl }.

(** What one line of the header is. *)
Inductive item : Type :=
| IBlank
| IPragma (toks : list token)
| IInclude (file : string)
| IDefine (name : string) (body : list token)
| INamespace (name : string)
| IClassHead (key name : string) (bases : list (string * string))
| IAccess (access : string)
| IMethod (m : method_decl)
| IField (f : field_decl)
| ITypeDecl (key name : string)   (* struct, union, enum, typedef, using *)
| IClose (semicolon : bool)
| IOther (toks : list token).

Definition is_access (s : string) : bool :=
  String.eqb s "public" || String.eqb s "protected" || String.eqb s "private".

Definition is_type_key (s : string) : bool :=
  String.eqb s "struct" || String.eqb s "union" || String.eqb s "enum"
  || String.eqb s "typedef" || String.eqb s "using".

Definition is_sym (c : ascii) (t : token) : bool := token_eqb t (TSym c).
Definition is_id (s : string) (t : token) : bool := token_eqb t (TId s).

(** The base-specifier list of a class head, up to the opening brace.  A
    base without an access specifier is private in a [class]. *)
Fixpoint read_bases (toks : list token) : list (string * string) :=
  match toks with
  | TId a :: rest =>
      if is_access a then
        match rest with
        | TId b :: rest' => (a, b) :: read_bases rest'
        | _ => []
        end
      else ("private", a) :: read_bases rest
  | TSym c :: rest => if Ascii.eqb c "," then read_bases rest else []
  | _ => []
  end.

(** Tokens up to the first [c], and the tokens after it. *)
Fixpoint split_at (c : ascii) (toks : list token)
  : option (list token * list token) :=
  match toks with
  | [] => None
  | t :: rest =>
      if is_sym c t then Some ([], rest)
      else match split_at c rest with
           | Some (l, r) => Some (t :: l, r)
           | None => None
           end
  end.

(** The comma-separated groups of a parameter list. *)
Fixpoint split_commas (cur : list token) (toks : list token)
  : list (list token) :=
  match toks with
  | [] => match cur with [] => [] | _ => [cur] end
  | t :: rest =>
      if is_sym "," t then cur :: split_commas [] rest
      else split_commas (cur ++ [t])%list rest
  end.

Definition read_param (toks : list token) : option param :=
  let (c, toks) :=
    match toks with
    | TId k :: rest =>
        if String.eqb k "const" then (true, rest) else (false, toks)
    | _ => (false, toks)
    end in
  match toks with
  | [TId ty] => Some (mk_param c ty false EmptyString)
  | [TId ty; TId nm] => Some (mk_param c ty false nm)
  | [TId ty; TSym a] =>
      if Ascii.eqb a "&" then Some (mk_param c ty true EmptyString) else None
  | [TId ty; TSym a; TId nm] =>
      if Ascii.eqb a "&" then Some (mk_param c ty true nm) else None
  | _ => None
  end.

Fixpoint read_params (groups : list (list token)) : option (list param) :=
  match groups with
  | [] => Some []
  | g :: rest =>
      match read_param g, read_params rest with
      | Some p, Some ps => Some (p :: ps)
      | _, _ => None
      end
  end.

(** The specifiers after a parameter list: any of [const] and [override],
    then the semicolon.  Anything else is not a declaration this reader
    knows. *)
Fixpoint read_quals (toks : list token) (c o : bool) : option (bool * bool) :=
  match toks with
  | [TSym s] => if Ascii.eqb s ";" then Some (c, o) else None
  | TId q :: rest =>
      if String.eqb q "const" then read_quals rest true o
      else if String.eqb q "override" then read_quals rest c true
      else None
  | _ => None
  end.

(** A member-function declaration:
    [virtual]? return-type name [(] parameters [)] specifiers [;]. *)
Definition read_method (toks : list token) : option method_decl :=
  let (v, toks) :=
    match toks with
    | TId k :: rest =>
        if String.eqb k "virtual" then (true, rest) else (false, toks)
    | _ => (false, toks)
    end in
  match toks with
  | TId ret :: TId name :: TSym open :: rest =>
      if Ascii.eqb open "(" then
        match split_at ")" rest with
        | Some (ps, after) =>
            match read_params (split_commas [] ps),
                  read_quals after false false with
            | Some params, Some (c, o) =>
                Some (mk_method v ret name params c o)
            | _, _ => None
            end
        | None => None
        end
      else None
  | _ => None
  end.

(** Classifying one line by its tokens. *)
Definition read_item (toks : list token) : item :=
  match toks with
  | [] => IBlank
  | TSym c :: rest =>
      if Ascii.eqb c "#" then
        match rest with
        | [TId d; TLit f] =>
            if String.eqb d "include" then IInclude f else IOther toks
        | TId d :: TId n :: body =>
            if String.eqb d "define" then IDefine n body
            else if String.eqb d "pragma" then IPragma (TId n :: body)
            else IOther toks
        | _ => IOther toks
        end
      else if Ascii.eqb c "}" then
        match rest with
        | [] => IClose false
        | [TSym s] => if Ascii.eqb s ";" then IClose true else IOther toks
        | _ => IOther toks
        end
      else IOther toks
  | TId k :: rest =>
      if String.eqb k "namespace" then
        match rest with
        | [TId n; TSym b] =>
            if Ascii.eqb b "{" then INamespace n else IOther toks
        | _ => IOther toks
        end
      else if String.eqb k "class" || String.eqb k "struct" then
        match rest with
        | TId n :: TSym b :: bases =>
            if Ascii.eqb b ":" then IClassHead k n (read_bases bases)
            else if Ascii.eqb b "{" then IClassHead k n []
            else ITypeDecl k n
        | TId n :: _ => ITypeDecl k n
        | _ => IOther toks
        end
      else if is_type_key k then
        match rest with
        | TId n :: _ => ITypeDecl k n
        | _ => ITypeDecl k EmptyString
        end
      else if is_access k then
        match rest with
        | [TSym c] => if Ascii.eqb c ":" then IAccess k else IOther toks
        | _ => IOther toks
        end
      else
        match rest with
        | [TId n; TSym s] =>
            if Ascii.eqb s ";" then IField (mk_field k n) else IOther toks
        | _ =>
            match read_method toks with
            | Some m => IMethod m
            | None => IOther toks
            end
        end
  | TLit _ :: _ => IOther toks
  end.

Definition items_of (lines : list string) : list item :=
  map (fun l => read_item (tokens_of_line l)) lines.

Definition add_method (c : class_decl) (m : method_decl) : class_decl :=
  mk_class (c_key c) (c_name c) (c_bases c)
           (c_methods c ++ [m])%list (c_fields c).

Definition add_field (c : class_decl) (f : field_decl) : class_decl :=
  mk_class (c_key c) (c_name c) (c_bases c)
           (c_methods c) (c_fields c ++ [f])%list.

(** Grouping the items: the members between a class head and its closing
    [};] go to that class; the result is the classes, in order, and the
    non-blank items that belong to no class. *)
Fixpoint assemble (cur : option class_decl) (items : list item)
  : list class_decl * list item :=
  match items with
  | [] => (match cur with Some c => [c] | None => [] end, [])
  | i :: rest =>
      match cur, i with
      | _, IBlank => assemble cur rest
      | Some c, IMethod m => assemble (Some (add_method c m)) rest
      | Some c, IField f => assemble (Some (add_field c f)) rest
      | Some c, IAccess _ => assemble cur rest
      | Some c, IClose true =>
          let (cs, top) := assemble None rest in (c :: cs, top)
      | None, IClassHead k n b => assemble (Some (mk_class k n b [] [])) rest
      | _, _ => let (cs, top) := assemble cur rest in (cs, i :: top)
      end
  end.

Record translation_unit : Type := mk_tu
  { tu_pragmas : list (list token)
  ; tu_includes : list string
  ; tu_macros : list (string * list token)   (* [#define] name and body *)
  ; tu_namespaces : list string
  ; tu_classes : list class_decl
  ; tu_rest : list item                      (* every other declaration *) }.

Definition pragma_of (i : item) : list (list token) :=
  match i with IPragma t => [t] | _ => [] end.
Definition include_of (i : item) : list string :=
  match i with IInclude f => [f] | _ => [] end.
Definition macro_of (i : item) : list (string * list token) :=
  match i with IDefine n b => [(n, b)] | _ => [] end.
Definition namespace_of (i : item) : list string :=
  match i with INamespace n => [n] | _ => [] end.

(** An item outside every class that is neither a preprocessor directive
    nor the opening or closing of a namespace. *)
Definition rest_of (i : item) : list item :=
  match i with
  | IBlank | IPragma _ | IInclude _ | IDefine _ _ | INamespace _
  | IClose false => []
  | _ => [i]
  end.

Definition read_unit (text : string) : translation_unit :=
  let (cs, top) := assemble None (items_of (split_lines text)) in
  mk_tu (flat_map pragma_of top) (flat_map include_of top)
        (flat_map macro_of top) (flat_map namespace_of top)
        cs (flat_map rest_of top).

(** Every token of a text, and whether a word occurs among them. *)
Definition all_tokens (text : string) : list token :=
  flat_map tokens_of_line (split_lines text).

Definition mentions (word : string) (text : string) : bool :=
  existsb (is_id word) (all_tokens text).

(** The declarations of a struct, union, enum or alias in a text, wherever
    they stand. *)
Definition type_decls (text : string) : list (string * string) :=
  flat_map (fun i => match i with ITypeDecl k n => [(k, n)] | _ => [] end)
           (items_of (split_lines text)).

(** *** The preprocessor's object-like macros *)

Fixpoint macro_body (name : string) (ms : list (string * list token))
  : option (list token) :=
  match ms with
  | [] => None
  | (n, b) :: rest => if String.eqb n name then Some b else macro_body name rest
  end.

(** Replacing each identifier that names a macro by the macro's body.
    This is the expansion of a plain run of tokens, such as the expression
    of a [return] statement: it knows no [#undef] or [#ifdef], and a name
    inside a qualified name is not a token of its own. *)
Definition expand (ms : list (string * list token)) (toks : list token)
  : list token :=
  flat_map (fun t =>
    match t with
    | TId n => match macro_body n ms with Some b => b | None => [t] end
    | _ => [t]
    end) toks.

(** The types an object of the class is made of: its base classes and the
    types of its data members. *)
Definition data_types (c : class_decl) : list string :=
  (map snd (c_bases c) ++ map f_type (c_fields c))%list.

(** The types the member-function signatures mention. *)
Definition signature_types (c : class_decl) : list string :=
  flat_map (fun m => m_ret m :: map p_type (m_params m)) (c_methods c).

(** The types a class's declaration depends on: those its objects are made
    of and those its member-function signatures mention.  [void] is a
    keyword, not a type that a declaration has to be in scope for. *)
Definition depends_on (c : class_decl) : list string :=
  (data_types c
   ++ filter (fun t => negb (String.eqb t "void")) (signature_types c))%list.

End Decl.
Import Decl.

(** ** The header as read *)

Module Hpp.

Definition unit_ : translation_unit := read_unit minijinja_extension_hpp.

(** The declarations of lines 12 to 14. *)
Definition Load_decl : method_decl :=
  mk_method false "void" "Load" [mk_param false "ExtensionLoader" true "db"]
            false true.
Definition Name_decl : method_decl :=
  mk_method false "std::string" "Name" [] false true.
Definition Version_decl : method_decl :=
  mk_method false "std::string" "Version" [] true true.

(** The class of lines 10 to 15. *)
Definition MinijinjaExtension_decl : class_decl :=
  mk_class "class" "MinijinjaExtension" [("public", "Extension")]
           [Load_decl; Name_decl; Version_decl] [].

(** The name of the macro of line 8. *)
Definition version_macro : string := "MINIJINJA_EXTENSION_VERSION".

(** The member functions the header declares, in order. *)
Definition declared_methods : list method_decl :=
  flat_map c_methods (tu_classes unit_).

(** The declaration of the member function of a given name. *)
Definition declaration_of (name : string) : option method_decl :=
  find (fun m => String.eqb (m_name m) name) declared_methods.

End Hpp.
Import Hpp.

(** ** Meaning of the member functions *)

Module Sem.

(** A call either returns a value or throws. *)
Inductive outcome (E A : Type) : Type :=
| Returned (a : A)
| Thrown (e : E).
Arguments Returned {E A} a.
Arguments Thrown {E A} e.

(** The meaning of a member-function signature.  [Self] is the state of the
    object the function is called on and [Env] the state it reaches
    otherwise: the arguments passed by reference and the rest of the
    program.  A [const] member function reads the object; a non-const one
    also yields the object's next state. *)
Definition member_fn (is_const : bool) (E Self Env R : Type) : Type :=
  if is_const then Self -> Env -> outcome E R * Env
  else Self -> Env -> outcome E R * Self * Env.

(** Calling a member function on an object: result, object afterwards,
    environment afterwards. *)
Definition call {is_const : bool} {E Self Env R : Type}
  : member_fn is_const E Self Env R ->
    Self -> Env -> outcome E R * Self * Env :=
  match is_const with
  | true => fun f self env => let (r, env') := f self env in (r, self, env')
  | false => fun f => f
  end.

Definition result_of {E Self Env R} (x : outcome E R * Self * Env)
  : outcome E R :=
  fst (fst x).
Definition object_after {E Self Env R} (x : outcome E R * Self * Env) : Self :=
  snd (fst x).
Definition env_after {E Self Env R} (x : outcome E R * Self * Env) : Env :=
  snd x.

(** The Rocq type of a declared return type: [void] carries no value. *)
Definition ret_type (d : method_decl) : Type :=
  if String.eqb (m_ret d) "void" then unit else string.

(** The concatenation of adjacent string literals, which is the value of
    a string-literal expression; [None] if a token is not a literal.  A
    literal is taken by its spelling, which is its value when it holds no
    escape sequence and has no encoding prefix, as the header's literal. *)
Fixpoint literal_value (toks : list token) : option string :=
  match toks with
  | [] => Some EmptyString
  | TLit s :: rest =>
      match literal_value rest with
      | Some r => Some (s ++ r)
      | None => None
      end
  | _ => None
  end.

(** The string a macro of the header stands for. *)
Definition macro_string (name : string) : option string :=
  match macro_body name (tu_macros unit_) with
  | Some b => literal_value b
  | None => None
  end.

Section Host.

(** What the host defines ([duckdb.hpp] is not part of the source tree):
    the exceptions it throws, the state of an [Extension] base-class
    subobject, the state of an [ExtensionLoader], and the state of the
    rest of the program. *)
Variables Exception Extension ExtensionLoader World : Type.

(** The registration of the extension's functionality into a loader, as
    the host carries it out: it may throw, and yields the loader's next
    state. *)
Variable register_functionality :
  ExtensionLoader -> outcome Exception unit * ExtensionLoader.

(** The literal that the body of [Name] returns. *)
Variable extension_name : string.

(** An object of the class: the class declares no data member, so the
    object is its [Extension] base-class subobject. *)
Record MinijinjaExtension : Type := mk_ext { ext_base : Extension }.

(** What a member function reaches besides the object: the loader, when
    the declaration takes one by reference, and the rest of the program. *)
Definition env_type (d : method_decl) : Type :=
  match m_params d with
  | [] => World
  | _ => (ExtensionLoader * World)%type
  end.

Definition sem_of (d : method_decl) : Type :=
  member_fn (m_const d) Exception MinijinjaExtension (env_type d) (ret_type d).

(** Modelled from the spec: the body of [MinijinjaExtension::Load], which
    is defined in a translation unit that is not part of the source tree.
    The spec: an operation that performs one-time registration of
    functionality into a provided loader context, with no specified
    return value, failing if registration fails. *)
Definition Load : sem_of Load_decl :=
  fun self env =>
    let (db, w) := env in
    let (r, db') := register_functionality db in
    (r, self, (db', w)).

(** Modelled from the spec: the body of [MinijinjaExtension::Name], which
    is defined in a translation unit that is not part of the source tree.
    The spec: an operation returning the extension's stable identifying
    name (pure, no side effects). *)
Definition Name : sem_of Name_decl :=
  fun self w => (Returned extension_name, self, w).

(** Modelled from the spec: the body of [MinijinjaExtension::Version],
    which is defined in a translation unit that is not part of the source
    tree.  The spec: [Version()] returns the string defined by the version
    macro; so the body is [return MINIJINJA_EXTENSION_VERSION;], whose
    value is that of the macro's expansion in the header. *)
Definition Version : sem_of Version_decl :=
  fun self w =>
    (Returned
       match literal_value (expand (tu_macros unit_) [TId version_macro]) with
       | Some s => s
       | None => EmptyString
       end, w).

(** Modelled from the spec: the host's virtual interface [Extension], of
    which the class overrides three members with the signatures that the
    host expects. *)
Record ExtensionVTable : Type := mk_vtable
  { v_Load : sem_of Load_decl
  ; v_Name : sem_of Name_decl
  ; v_Version : sem_of Version_decl }.

Definition MinijinjaExtension_vtable : ExtensionVTable :=
  mk_vtable Load Name Version.

(** How the loading of an extension ends for the host. *)
Inductive load_result : Type :=
| Loaded (ext : MinijinjaExtension) (db : ExtensionLoader) (w : World)
| LoadFailed (e : Exception).

(** Modelled from the spec: the host's loading of the extension, which is
    host code.  The spec: the host loader calls [Load]; the whole
    extension load fails if registration fails. *)
Definition host_load_extension (vt : ExtensionVTable)
  (ext : MinijinjaExtension) (db : ExtensionLoader) (w : World)
  : load_result :=
  match call (v_Load vt) ext (db, w) with
  | (Returned _, ext', (db', w')) => Loaded ext' db' w'
  | (Thrown e, _, _) => LoadFailed e
  end.

End Host.

Arguments mk_ext {Extension} ext_base.
Arguments ext_base {Extension} _.
End Sem.
Import Sem.

(** * Properties *)

(** ** The text and its reading *)

Lemma append_empty_r (s : string) : s ++ EmptyString = s.
Proof. induction s; simpl; congruence. Qed.

Lemma append_snoc (s t : string) (c : ascii) :
  (s ++ str c) ++ t = s ++ String c t.
Proof. induction s; simpl; congruence. Qed.

Lemma no_lf_tail (c : ascii) (l : string) : no_lf (String c l) -> no_lf l.
Proof. intros H d Hd. apply H. right. exact Hd. Qed.

Lemma no_lf_head (c : ascii) (l : string) :
  no_lf (String c l) -> Ascii.eqb c lf = false.
Proof.
  intros H. destruct (Ascii.eqb_spec c lf) as [->|_]; [|reflexivity].
  exfalso. apply (H lf); [left|]; reflexivity.
Qed.

Lemma split_lines_from_app (cur l rest : string) :
  no_lf l ->
  split_lines_from cur (l ++ String lf rest)
  = (cur ++ l) :: split_lines_from EmptyString rest.
Proof.
  revert cur. induction l as [|c l IH]; intros cur Hl.
  - simpl. now rewrite append_empty_r.
  - cbn [append split_lines_from]. rewrite (no_lf_head _ _ Hl).
    rewrite IH by exact (no_lf_tail _ _ Hl).
    now rewrite append_snoc.
Qed.

Lemma split_lines_from_last (cur l : string) :
  no_lf l -> split_lines_from cur l = [cur ++ l].
Proof.
  revert cur. induction l as [|c l IH]; intros cur Hl.
  - simpl. now rewrite append_empty_r.
  - cbn [split_lines_from]. rewrite (no_lf_head _ _ Hl).
    rewrite IH by exact (no_lf_tail _ _ Hl).
    now rewrite append_snoc.
Qed.

(** Joining lines with line feeds and splitting the text again gives the
    lines back, when no line holds a line feed. *)
Lemma split_join_lines (l : string) (ls : list string) :
  Forall no_lf (l :: ls) -> split_lines (join_lines (l :: ls)) = l :: ls.
Proof.
  unfold split_lines, join_lines. revert l.
  induction ls as [|l' ls IH]; intros l H; inversion H as [|? ? Hl Hls]; subst.
  - simpl. apply (split_lines_from_last EmptyString l Hl).
  - change (String.concat (str lf) (l :: l' :: ls))
      with (l ++ String lf (String.concat (str lf) (l' :: ls))).
    rewrite split_lines_from_app by exact Hl.
    simpl append. f_equal. apply IH. exact Hls.
Qed.

(** The header's text has the 376 bytes of the file. *)
Lemma hpp_size : String.length minijinja_extension_hpp = 376.
Proof. reflexivity. Qed.

Lemma hpp_split : split_lines minijinja_extension_hpp = hpp_lines.
Proof. vm_compute. reflexivity. Qed.

(** What the reader finds in the header. *)
Lemma unit_read :
  unit_ = mk_tu [[TId "once"]] ["duckdb.hpp"]
                [(version_macro, [TLit "2025101901"])] ["duckdb"]
                [MinijinjaExtension_decl] [].
Proof. vm_compute. reflexivity. Qed.

(** The reader does see data members, aggregates, aliases and free
    functions where a text has them. *)
Example reader_sees_field :
  map c_fields (tu_classes (read_unit (join_lines
    ["class C : public B {"; "int n;"; "void f() const;"; "};"])))
  = [[mk_field "int" "n"]].
Proof. vm_compute. reflexivity. Qed.

Example reader_sees_type_decls :
  type_decls (join_lines ["struct P;"; "enum E { A };"; "using T = int;"])
  = [("struct", "P"); ("enum", "E"); ("using", "T")].
Proof. vm_compute. reflexivity. Qed.

Example reader_sees_free_function :
  tu_rest (read_unit (join_lines ["namespace n {"; "void g(int x);"; "}"]))
  = [IMethod (mk_method false "void" "g" [mk_param false "int" false "x"]
                        false false)].
Proof. vm_compute. reflexivity. Qed.

(** ** Calls *)

(** A [const] member function leaves the object as it was, whatever its
    body is. *)
Lemma call_const_object (E Self Env R : Type)
  (body : member_fn true E Self Env R) (self : Self) (env : Env) :
  object_after (call body self env) = self.
Proof.
  unfold object_after, call. destruct (body self env). reflexivity.
Qed.

(** A non-const signature admits a body that changes the object. *)
Lemma call_nonconst_may_write (E Env R : Type) (r : outcome E R) (env : Env) :
  exists body : member_fn false E bool Env R,
    object_after (call body true env) <> true.
Proof.
  exists (fun self env => (r, negb self, env)). simpl. discriminate.
Qed.

(** ** The claims *)

Section Claims.

Variables Exception Extension ExtensionLoader World : Type.

Local Abbreviation Obj := (MinijinjaExtension Extension).
Local Abbreviation Version_ := (Version Exception Extension ExtensionLoader World).
Local Abbreviation Name_ := (Name Exception Extension ExtensionLoader World).
Local Abbreviation Load_ := (Load Exception Extension ExtensionLoader World).
Local Abbreviation vtable_ :=
  (MinijinjaExtension_vtable Exception Extension ExtensionLoader World).

(** C1.  For every [MinijinjaExtension] object, [Version()] returns exactly
    the string that the macro [MINIJINJA_EXTENSION_VERSION] of the header
    stands for: there is one string, the macro's, that every call returns,
    whatever the object and the program state are, and the call changes
    neither. *)
Theorem Version_returns_macro_string :
  exists s : string,
    macro_string version_macro = Some s /\
    forall (self : Obj) (w : World),
      call Version_ self w = (Returned s, self, w).
Proof.
  exists "2025101901". split; [vm_compute; reflexivity|].
  intros self w. reflexivity.
Qed.

(** C9.  Line 8 of the header defines [MINIJINJA_EXTENSION_VERSION] as the
    string literal 2025101901, the preprocessor holds that literal as the
    macro's body, and [Version()] therefore returns the string 2025101901. *)
Theorem version_macro_is_2025101901 :
  nth 7 (split_lines minijinja_extension_hpp) EmptyString
  = "#define MINIJINJA_EXTENSION_VERSION " ++ quoted "2025101901"
  /\ macro_body version_macro (tu_macros unit_) = Some [TLit "2025101901"]
  /\ forall (self : Obj) (w : World),
       result_of (call Version_ self w) = Returned "2025101901".
Proof.
  split; [vm_compute; reflexivity|].
  split; [vm_compute; reflexivity|].
  intros self w. reflexivity.
Qed.

(** C3.  [Name()] is pure: a call leaves the object and the rest of the
    program state as they were, and a second run, from the state the first
    one leaves, returns the same result as the first. *)
Theorem Name_pure (name : string) (self : Obj) (w : World) :
  let first := call (Name_ name) self w in
  let second := call (Name_ name) (object_after first) (env_after first) in
  object_after first = self
  /\ env_after first = w
  /\ result_of second = result_of first.
Proof. cbv zeta. repeat split. Qed.

(** C4.  [Load] is declared with return type [void]; it registers into the
    loader passed to it, once: the loader it leaves is the one that one
    registration yields from the loader it was given, and the object and
    the rest of the program are as before.  When registration succeeds,
    [Load] returns no value and the host's load succeeds with that loader;
    when registration throws, [Load] throws the same exception instead of
    returning, and the host's load of the extension fails with it. *)
Theorem Load_registers_or_fails
  (register : ExtensionLoader -> outcome Exception unit * ExtensionLoader)
  (name : string) (self : Obj) (db : ExtensionLoader) (w : World) :
  declaration_of "Load" = Some Load_decl
  /\ m_ret Load_decl = "void"
  /\ ret_type Load_decl = unit
  /\ object_after (call (Load_ register) self (db, w)) = self
  /\ env_after (call (Load_ register) self (db, w)) = (snd (register db), w)
  /\ match fst (register db) with
     | Returned v =>
         result_of (call (Load_ register) self (db, w)) = Returned tt
         /\ host_load_extension _ _ _ _ (vtable_ register name) self db w
            = Loaded _ _ _ _ self (snd (register db)) w
     | Thrown e =>
         result_of (call (Load_ register) self (db, w)) = Thrown e
         /\ host_load_extension _ _ _ _ (vtable_ register name) self db w
            = LoadFailed _ _ _ _ e
     end.
Proof.
  split; [vm_compute; reflexivity|].
  split; [reflexivity|]. split; [reflexivity|].
  unfold host_load_extension, object_after, env_after, result_of; simpl.
  destruct (register db) as [[[]|e] db']; simpl; repeat split.
Qed.

End Claims.

(** Registration that succeeds and registration that throws, on a loader
    that counts the registrations made into it. *)
Example Load_counts_one_registration :
  call (Load unit unit nat unit (fun n => (Returned tt, S n))) (mk_ext tt) (0, tt)
  = (Returned tt, mk_ext tt, (1, tt)).
Proof. reflexivity. Qed.

Example host_load_fails_when_registration_throws :
  host_load_extension nat unit nat unit
    (MinijinjaExtension_vtable nat unit nat unit (fun n => (Thrown 7, n)) "x")
    (mk_ext tt) 0 tt
  = LoadFailed nat unit nat unit 7.
Proof. reflexivity. Qed.

(** C5.  The header declares one class, [MinijinjaExtension], whose one base
    is the public base [Extension]; the class declares three member
    functions, [Load], [Name] and [Version], each marked [override], and no
    data member; the header defines one macro,
    [MINIJINJA_EXTENSION_VERSION], whose body is a string literal; and it
    declares nothing else. *)
Theorem header_declares_three_overrides :
  map (fun c => (c_name c, c_bases c)) (tu_classes unit_)
  = [("MinijinjaExtension", [("public", "Extension")])]
  /\ map (fun m => (m_name m, m_override m)) declared_methods
     = [("Load", true); ("Name", true); ("Version", true)]
  /\ flat_map c_fields (tu_classes unit_) = []
  /\ map fst (tu_macros unit_) = ["MINIJINJA_EXTENSION_VERSION"]
  /\ (exists s, map snd (tu_macros unit_) = [[TLit s]])
  /\ tu_rest unit_ = [].
Proof.
  rewrite (f_equal tu_macros unit_read), (f_equal tu_rest unit_read).
  unfold declared_methods. rewrite (f_equal tu_classes unit_read). simpl.
  repeat split. exists "2025101901". reflexivity.
Qed.

(** C6.  The source tree holds one file, the header
    [src/include/minijinja_extension.hpp]; it has exactly 17 lines; and the
    one interface it declares is the class [MinijinjaExtension]: it holds no
    other class, no other type declaration and no free function. *)
Theorem source_is_one_header_of_17_lines :
  map fst source_files = ["src/include/minijinja_extension.hpp"]
  /\ map (fun f => List.length (split_lines (snd f))) source_files = [17]
  /\ map c_name (flat_map (fun f => tu_classes (read_unit (snd f))) source_files)
     = ["MinijinjaExtension"]
  /\ flat_map (fun f => tu_rest (read_unit (snd f))) source_files = [].
Proof. vm_compute. repeat split. Qed.

(** C7, as stated, fails on the header: the class does not depend on the
    base [Extension] alone.  Its declaration of [Load] takes an
    [ExtensionLoader] by reference, so [ExtensionLoader] is among the types
    the class depends on. *)
Lemma class_depends_on_more_than_Extension :
  ~ (forall c t, In c (tu_classes unit_) -> In t (depends_on c) ->
                 t = "Extension").
Proof.
  intros H.
  assert (Hc : In MinijinjaExtension_decl (tu_classes unit_))
    by (rewrite (f_equal tu_classes unit_read); left; reflexivity).
  assert (Ht : In "ExtensionLoader" (depends_on MinijinjaExtension_decl))
    by (vm_compute; right; left; reflexivity).
  discriminate (H _ _ Hc Ht).
Qed.

(** C7, amended.  The header declares no struct, union, enum or alias (the
    words do not occur in it at all) and no data member; the one data
    structure it defines is the class [MinijinjaExtension]; an object of
    that class is made of its base [Extension] alone; and the types the
    class's declaration depends on are the host's [Extension], its base,
    the host's [ExtensionLoader], the parameter of [Load], and
    [std::string], the return type of [Name] and [Version]. *)
Theorem header_data_structures_and_dependencies :
  type_decls minijinja_extension_hpp = []
  /\ map (fun k => mentions k minijinja_extension_hpp)
         ["struct"; "union"; "enum"; "typedef"; "using"]
     = [false; false; false; false; false]
  /\ map (fun c => (c_key c, c_name c)) (tu_classes unit_)
     = [("class", "MinijinjaExtension")]
  /\ flat_map c_fields (tu_classes unit_) = []
  /\ flat_map data_types (tu_classes unit_) = ["Extension"]
  /\ flat_map depends_on (tu_classes unit_)
     = ["Extension"; "ExtensionLoader"; "std::string"; "std::string"]
  /\ tu_rest unit_ = [].
Proof. vm_compute. repeat split. Qed.

(** C10.  [Version] is declared [const], so a call of [Version], whatever
    its body is, leaves the object as it was; [Name] and [Load] are not
    declared [const], and their signatures admit bodies that change the
    object. *)
Theorem Version_const_frame :
  declared_methods = [Load_decl; Name_decl; Version_decl]
  /\ m_const Version_decl = true
  /\ m_const Name_decl = false
  /\ m_const Load_decl = false
  /\ (forall (Exception Extension ExtensionLoader World : Type)
             (body : sem_of Exception Extension ExtensionLoader World Version_decl)
             (self : MinijinjaExtension Extension) (w : World),
        object_after (call body self w) = self)
  /\ (exists body : sem_of unit bool unit unit Name_decl,
        forall self w, object_after (call body self w) <> self)
  /\ (exists body : sem_of unit bool unit unit Load_decl,
        forall self env, object_after (call body self env) <> self).
Proof.
  split; [vm_compute; reflexivity|].
  repeat (split; [reflexivity|]).
  split; [|split].
  - intros E X L W body self w.
    exact (call_const_object E (MinijinjaExtension X) W string body self w).
  - exists (fun self w => (Returned EmptyString, mk_ext (negb (ext_base self)), w)).
    intros [[]] w; simpl; discriminate.
  - exists (fun self env => (Returned tt, mk_ext (negb (ext_base self)), env)).
    intros [[]] env; simpl; discriminate.
Qed.
